(** * Response containers of starlite ([starlite/response_containers.py])

    A shallow embedding of the four response containers ([File], [Redirect],
    [Stream], [Template]) and of their conversion into response values,
    followed by the properties proved about them.

    Python objects are mutable and the methods of the containers read and
    write [self]; they are embedded in a small state-and-exception monad
    whose state holds the container's fields together with a trace of the
    calls the method makes to the outside (a user callable, [os.stat]). *)

From stdpp Require Import base option list strings pretty gmap.

Open Scope string_scope.
Open Scope list_scope.
Open Scope Z_scope.

(** ** Python values *)

(** The special methods a class provides.  The abstract base classes of
    [collections.abc] recognise their instances by these methods, and
    [callable] looks for [__call__]. *)
Record pytype := PyType {
  has_iter : bool;    (* __iter__ *)
  has_next : bool;    (* __next__ *)
  has_aiter : bool;   (* __aiter__ *)
  has_anext : bool;   (* __anext__ *)
  has_call : bool     (* __call__ *)
}.

(** An object known by its identity, with its class, its truth value
    ([__bool__]) and its rendering by [format] ([__format__], [__str__]). *)
Record pyobj := PyObj {
  obj_id : nat;
  obj_type : pytype;
  obj_bool : bool;
  obj_str : string
}.

Inductive value :=
  | VNone
  | VBool (b : bool)
  | VInt (n : Z)
  | VStr (s : string)
  | VObj (o : pyobj).

Definition plain_type : pytype := PyType false false false false false.
Definition str_type : pytype := PyType true false false false false.

Definition type_of (v : value) : pytype :=
  match v with
  | VNone | VBool _ | VInt _ => plain_type
  | VStr _ => str_type
  | VObj o => obj_type o
  end.

(** The abstract base classes the module imports from [typing]. *)
Inductive abc := Iterable | Iterator | AsyncIterable | AsyncIterator.

Definition instance_of (v : value) (c : abc) : bool :=
  match c with
  | Iterable => has_iter (type_of v)
  | Iterator => has_iter (type_of v) && has_next (type_of v)
  | AsyncIterable => has_aiter (type_of v)
  | AsyncIterator => has_aiter (type_of v) && has_anext (type_of v)
  end.

(** [isinstance(v, (c1, ..., cn))] *)
Definition isinstance (v : value) (classes : list abc) : bool :=
  existsb (instance_of v) classes.

(** [callable(v)] *)
Definition callable (v : value) : bool := has_call (type_of v).

(** Truth value of [v], as tested by [not v] and [if v]. *)
Definition truthy (v : value) : bool :=
  match v with
  | VNone => false
  | VBool b => b
  | VInt n => negb (n =? 0)
  | VStr s => negb (String.eqb s "")
  | VObj o => obj_bool o
  end.

(** [format(v, "")], what an f-string puts in place of [{v}]. *)
Definition py_format (v : value) : string :=
  match v with
  | VNone => "None"
  | VBool true => "True"
  | VBool false => "False"
  | VInt n => pretty n
  | VStr s => s
  | VObj o => obj_str o
  end.

(** An object together with its attributes, for [getattr]. *)
Record instance := Instance_ {
  inst_obj : pyobj;
  inst_attrs : gmap string value
}.

(** [getattr(o, name, default)] *)
Definition getattr (o : instance) (name : string) (d : value) : value :=
  default d (inst_attrs o !! name).

(** ** Exceptions, traces and the monad *)

(** Modelled from the spec: [ImproperlyConfiguredException] is defined in
    [starlite.exceptions]; it is the configuration error of sections 4 and 7,
    and carries its message.  [TypeError] and [OSError] are Python's own;
    [Raised] stands for any other exception a user callable raises. *)
Inductive exn :=
  | ImproperlyConfiguredException (detail : string)
  | TypeError (msg : string)
  | OSError (filename : string)
  | Raised (e : pyobj).

(** What a method does to the outside world, in the order it does it. *)
Inductive event :=
  | Called (f : pyobj)    (* f() *)
  | Stat (p : string).    (* Path(p).stat() *)

Record world (C : Type) := World {
  self : C;
  trace : list event
}.
Arguments World {C} _ _.
Arguments self {C} _.
Arguments trace {C} _.

Definition M (C A : Type) : Type := world C → (exn + A) * world C.

(** The monad operations, as instances of stdpp's classes, which gives the
    notations [x ← m; k] and [m;; k]: an exception ends the computation and
    keeps the state reached. *)
#[global] Instance M_ret {C} : MRet (M C) := λ A a w, (inr a, w).

#[global] Instance M_bind {C} : MBind (M C) := λ A B k m w,
  match m w with
  | (inr a, w') => k a w'
  | (inl e, w') => (inl e, w')
  end.

(** [raise e] *)
Definition raise {C A} (e : exn) : M C A := λ w, (inl e, w).

(** [self.f] *)
Definition load {C A} (f : C → A) : M C A := λ w, (inr (f (self w)), w).

(** [self.f = a], with [upd] the record update of field [f]. *)
Definition store {C} (upd : C → C) : M C unit :=
  λ w, (inr tt, World (upd (self w)) (trace w)).

(** A call to the outside with outcome [r]: it is recorded in the trace
    whether it returns or raises. *)
Definition outside {C A} (e : event) (r : exn + A) : M C A :=
  λ w, (r, World (self w) (trace w ++ [e])).

(** ** The collaborators of the containers *)

(** Modelled from the spec: the application class [Starlite] is defined in
    [starlite.app]; the containers read one attribute of it, the template
    engine handle, which is [None] when no engine is configured. *)
Record Starlite := { template_engine : value }.

(** Modelled from the spec: the class [Request] is defined in
    [starlite.connection]; a request is an object that carries a
    mapping-like [scope], from which the CSRF token is read. *)
Record Request := {
  request_obj : pyobj;
  scope : gmap string value
}.

(** [os.stat_result]: a structseq of at least ten entries, hence never empty
    and always true where the code tests [not self.stat_result]. *)
Record os_stat_result := {
  st_mode : Z;
  st_size : Z;
  st_mtime : Z
}.

(** Truth value of a field of type [os.stat_result | None]. *)
Definition stat_truthy (r : option os_stat_result) : bool :=
  match r with
  | Some _ => true
  | None => false
  end.

(** [Literal["attachment", "inline"]] *)
Inductive disposition := attachment | inline.

(** Modelled from the spec: the response classes are defined in
    [starlite.response].  A response value is the record of the keyword
    arguments its constructor is called with (section 4: the conversion
    builds a response value carrying the given fields). *)
Module FileResponse.
Record t := mk {
  background : value;
  chunk_size : Z;
  content_disposition_type : disposition;
  encoding : string;
  etag : value;
  file_info : value;
  file_system : instance;
  filename : option string;
  headers : gmap string value;
  media_type : value;
  path : string;
  stat_result : option os_stat_result;
  status_code : Z
}.
End FileResponse.

Module RedirectResponse.
Record t := mk {
  background : value;
  encoding : string;
  headers : gmap string value;
  status_code : Z;
  url : string
}.
End RedirectResponse.

Module StreamingResponse.
Record t := mk {
  background : value;
  content : value;
  encoding : string;
  headers : gmap string value;
  media_type : value;
  status_code : Z
}.
End StreamingResponse.

Module TemplateResponse.
Record t := mk {
  background : value;
  context : gmap string value;
  encoding : string;
  headers : gmap string value;
  status_code : Z;
  template_engine : value;
  template_name : string;
  media_type : value
}.
End TemplateResponse.

(** ** class File *)

Module File.

Record t := mk {
  path : string;
  background : value;
  headers : gmap string value;
  cookies : list value;
  media_type : value;
  encoding : string;
  filename : option string;
  stat_result : option os_stat_result;
  chunk_size : Z;
  content_disposition_type : disposition;
  etag : value;
  file_system : instance;
  file_info : value
}.

(** [self.stat_result = r] *)
Definition set_stat_result (r : option os_stat_result) (s : t) : t :=
  mk (path s) (background s) (headers s) (cookies s) (media_type s)
     (encoding s) (filename s) r (chunk_size s)
     (content_disposition_type s) (etag s) (file_system s) (file_info s).

Section with_filesystem.

(** The local file system: what [os.stat] finds at a path, [None] where
    it raises [OSError] (no such file, no permission). *)
Variable os_stat : string → option os_stat_result.

(** [Path(p).stat()] *)
Definition Path_stat (p : string) : M t os_stat_result :=
  outside (Stat p)
    match os_stat p with
    | Some r => inr r
    | None => inl (OSError p)
    end.

Definition __post_init__ : M t unit :=
  fs ← load file_system;
  (if negb (callable (getattr fs "info" VNone) &&
            callable (getattr fs "open" VNone))
   then raise (ImproperlyConfiguredException
                 "file_system must adhere to the FileSystemProtocol type")
   else mret tt);;
  sr ← load stat_result;
  if negb (stat_truthy sr)
  then p ← load path;
       r ← Path_stat p;
       store (set_stat_result (Some r))
  else mret tt.

(** The [__init__] that [@dataclass] generates: it sets the fields and
    calls [__post_init__]. *)
Definition __init__ (fields : t) (tr : list event)
  : (exn + unit) * world t :=
  __post_init__ (World fields tr).

End with_filesystem.

Definition to_response (headers : gmap string value) (media_type : value)
    (status_code : Z) (app : Starlite) (request : Request)
  : M t FileResponse.t :=
  background ← load background;
  chunk_size ← load chunk_size;
  content_disposition_type ← load content_disposition_type;
  encoding ← load encoding;
  etag ← load etag;
  file_info ← load file_info;
  file_system ← load file_system;
  filename ← load filename;
  path ← load path;
  stat_result ← load stat_result;
  mret (FileResponse.mk background chunk_size content_disposition_type
          encoding etag file_info file_system filename headers media_type
          path stat_result status_code).

End File.

(** ** class Redirect *)

Module Redirect.

Record t := mk {
  path : string;
  background : value;
  headers : gmap string value;
  cookies : list value;
  media_type : value;
  encoding : string
}.

(** [Redirect(path=p)], every other field at its declared default. *)
Definition defaults (p : string) : t :=
  mk p VNone ∅ [] VNone "utf-8".

(** The generated [__init__]; the class has no [__post_init__]. *)
Definition __init__ (fields : t) (tr : list event)
  : (exn + unit) * world t :=
  (inr tt, World fields tr).

(** [status_code] is annotated [Literal[301, 302, 303, 307, 308]]; the
    annotation is not checked when the program runs, so the argument is
    an integer. *)
Definition to_response (headers : gmap string value) (media_type : value)
    (status_code : Z) (app : Starlite) (request : Request)
  : M t RedirectResponse.t :=
  background ← load background;
  encoding ← load encoding;
  url ← load path;
  mret (RedirectResponse.mk background encoding headers status_code url).

End Redirect.

(** ** class Stream *)

Module Stream.

Record t := mk {
  iterator : value;
  background : value;
  headers : gmap string value;
  cookies : list value;
  media_type : value;
  encoding : string
}.

(** [self.iterator = v] *)
Definition set_iterator (v : value) (s : t) : t :=
  mk v (background s) (headers s) (cookies s) (media_type s) (encoding s).

Section with_callables.

(** What calling a callable object with no argument does: it returns a
    value or raises, and, being arbitrary code that may hold a reference
    to the container, it may leave the container's fields changed.  The
    outcome may depend on everything that happened before. *)
Variable call : pyobj → world t → (exn + value) * t.

(** [f()] *)
Definition invoke (f : value) : M t value :=
  match f with
  | VObj o =>
      if has_call (obj_type o)
      then λ w, let '(r, s) := call o w in
                (r, World s (trace w ++ [Called o]))
      else raise (TypeError "object is not callable")
  | _ => raise (TypeError "object is not callable")
  end.

Definition __post_init__ : M t unit :=
  it ← load iterator;
  (if negb (isinstance it [Iterable; Iterator; AsyncIterable; AsyncIterator])
      && callable it
   then f ← load iterator;
        v ← invoke f;
        store (set_iterator v)
   else mret tt);;
  it ← load iterator;
  if negb (isinstance it [Iterable; Iterator; AsyncIterable; AsyncIterator])
  then raise (ImproperlyConfiguredException
         "iterator must be either an iterator or a callable that returns an iterator")
  else mret tt.

(** The [__init__] that [@dataclass] generates: it sets the fields and
    calls [__post_init__]. *)
Definition __init__ (fields : t) (tr : list event)
  : (exn + unit) * world t :=
  __post_init__ (World fields tr).

Definition to_response (headers : gmap string value) (media_type : value)
    (status_code : Z) (app : Starlite) (request : Request)
  : M t StreamingResponse.t :=
  background ← load background;
  it ← load iterator;
  content ← (if isinstance it [Iterable; AsyncIterable]
             then load iterator
             else f ← load iterator; invoke f);
  encoding ← load encoding;
  mret (StreamingResponse.mk background content encoding headers
          media_type status_code).

End with_callables.

End Stream.

(** ** class Template *)

Module Template.

Record t := mk {
  name : string;
  context : gmap string value;
  background : value;
  headers : gmap string value;
  cookies : list value;
  media_type : value;
  encoding : string
}.

(** The double quote character, and the f-string
    [<input type="hidden" name="_csrf_token" value="{csrf_token}" />]. *)
Definition dq : string := String (Ascii.ascii_of_nat 34) "".

Definition csrf_input (csrf_token : value) : string :=
  "<input type=" +:+ dq +:+ "hidden" +:+ dq +:+
  " name=" +:+ dq +:+ "_csrf_token" +:+ dq +:+
  " value=" +:+ dq +:+ py_format csrf_token +:+ dq +:+ " />".

Definition create_template_context (request : Request)
  : M t (gmap string value) :=
  let csrf_token := default (VStr "") (scope request !! "_csrf_token") in
  context ← load context;
  mret (<["csrf_input" := VStr (csrf_input csrf_token)]>
          (<["request" := VObj (request_obj request)]> context)).

Definition to_response (headers : gmap string value) (media_type : value)
    (status_code : Z) (app : Starlite) (request : Request)
  : M t TemplateResponse.t :=
  if negb (truthy (template_engine app))
  then raise (ImproperlyConfiguredException "Template engine is not configured")
  else
    background ← load background;
    context ← create_template_context request;
    encoding ← load encoding;
    template_name ← load name;
    mret (TemplateResponse.mk background context encoding headers
            status_code (template_engine app) template_name media_type).

End Template.

(** ** The abstract base class *)

(** [ResponseContainer]: the fields every container declares and the one
    operation it has to supply. *)
Class ResponseContainer (C R : Type) := {
  rc_background : C → value;
  rc_headers : C → gmap string value;
  rc_cookies : C → list value;
  rc_media_type : C → value;
  rc_encoding : C → string;
  rc_to_response :
    gmap string value → value → Z → Starlite → Request → M C R
}.

#[global] Instance File_container : ResponseContainer File.t FileResponse.t := {
  rc_background := File.background;
  rc_headers := File.headers;
  rc_cookies := File.cookies;
  rc_media_type := File.media_type;
  rc_encoding := File.encoding;
  rc_to_response := File.to_response
}.

#[global] Instance Redirect_container
  : ResponseContainer Redirect.t RedirectResponse.t := {
  rc_background := Redirect.background;
  rc_headers := Redirect.headers;
  rc_cookies := Redirect.cookies;
  rc_media_type := Redirect.media_type;
  rc_encoding := Redirect.encoding;
  rc_to_response := Redirect.to_response
}.

Definition Stream_container (call : pyobj → world Stream.t → (exn + value) * Stream.t)
  : ResponseContainer Stream.t StreamingResponse.t := {|
  rc_background := Stream.background;
  rc_headers := Stream.headers;
  rc_cookies := Stream.cookies;
  rc_media_type := Stream.media_type;
  rc_encoding := Stream.encoding;
  rc_to_response := Stream.to_response call
|}.

#[global] Instance Template_container
  : ResponseContainer Template.t TemplateResponse.t := {
  rc_background := Template.background;
  rc_headers := Template.headers;
  rc_cookies := Template.cookies;
  rc_media_type := Template.media_type;
  rc_encoding := Template.encoding;
  rc_to_response := Template.to_response
}.

(** A conversion leaves the world [w] as it found it: no field of the
    container is written and nothing outside is called. *)
Definition conversion_is_pure {C R} (rc : ResponseContainer C R)
    (w : world C) : Prop :=
  ∀ headers media_type status_code app request,
    (rc_to_response headers media_type status_code app request w).2 = w.

(** ** Vocabulary of the statements *)


(** The object [fs] has an attribute [name] and it is callable. *)
Definition provides (fs : instance) (name : string) : bool :=
  match inst_attrs fs !! name with
  | Some v => callable v
  | None => false
  end.

(** The number of calls of user callables recorded in a trace. *)
Definition calls_in (tr : list event) : nat :=
  length (List.filter (λ e, match e with Called _ => true | Stat _ => false end) tr).

(** The number of [stat] calls recorded in a trace. *)
Definition stats_in (tr : list event) : nat :=
  length (List.filter (λ e, match e with Stat _ => true | Called _ => false end) tr).

(** ** Sample objects *)

Module Samples.

Definition function_type : pytype := PyType false false false false true.
Definition generator_type : pytype := PyType true true false false false.
Definition async_generator_type : pytype := PyType false false true true false.

Definition chunks : pyobj := PyObj 1 generator_type true "<generator object chunks>".
Definition make_chunks : pyobj := PyObj 2 function_type true "<function make_chunks>".
Definition make_seven : pyobj := PyObj 3 function_type true "<function make_seven>".
Definition engine : pyobj := PyObj 4 plain_type true "<JinjaTemplateEngine>".
Definition req : pyobj := PyObj 5 plain_type true "<Request>".
Definition fs_info : pyobj := PyObj 6 function_type true "<bound method info>".
Definition fs_open : pyobj := PyObj 7 function_type true "<bound method open>".
Definition fs : pyobj := PyObj 8 plain_type true "<BaseLocalFileSystem>".
Definition rename : pyobj := PyObj 9 function_type true "<function rename>".

(** [make_chunks()] returns a generator, [make_seven()] returns [7],
    [rename()] sets the encoding of the container it closes over and
    returns a generator; any other object raises. *)
Definition call (f : pyobj) (w : world Stream.t) : (exn + value) * Stream.t :=
  match obj_id f with
  | 2%nat => (inr (VObj chunks), self w)
  | 3%nat => (inr (VInt 7), self w)
  | 9%nat => (inr (VObj chunks),
              Stream.mk (Stream.iterator (self w)) (Stream.background (self w))
                (Stream.headers (self w)) (Stream.cookies (self w))
                (Stream.media_type (self w)) "latin-1")
  | _ => (inl (Raised f), self w)
  end.

Definition stream_of (it : value) : Stream.t :=
  Stream.mk it VNone ∅ [] VNone "utf-8".

Definition app_with_engine : Starlite := {| template_engine := VObj engine |}.
Definition app_without_engine : Starlite := {| template_engine := VNone |}.

Definition request_without_token : Request :=
  {| request_obj := req; scope := ∅ |}.

Definition index_page : Template.t :=
  Template.mk "index.html" {["title" := VStr "Home"]} VNone ∅ [] VNone "utf-8".

Definition local_fs : instance :=
  Instance_ fs (<["info" := VObj fs_info]> {["open" := VObj fs_open]}).
Definition read_only_fs : instance :=
  Instance_ fs {["info" := VObj fs_info]}.

Definition report_stat : os_stat_result :=
  {| st_mode := 33188; st_size := 2048; st_mtime := 1700000000 |}.

(** A file system that holds the one file [/srv/report.pdf]. *)
Definition os_stat (p : string) : option os_stat_result :=
  if String.eqb p "/srv/report.pdf" then Some report_stat else None.

Definition file_of (p : string) (sr : option os_stat_result) (fs : instance)
  : File.t :=
  File.mk p VNone ∅ [] VNone "utf-8" None sr 131072 attachment VNone fs VNone.

End Samples.

(** * Properties *)

(** ** Running monadic code *)

Lemma run_bind {C A B} (m : M C A) (k : A → M C B) (w w' : world C) (a : A) :
  m w = (inr a, w') → (m ≫= k) w = k a w'.
Proof. intros E. unfold mbind, M_bind. by rewrite E. Qed.

Lemma run_bind_raise {C A B} (m : M C A) (k : A → M C B) (w w' : world C) e :
  m w = (inl e, w') → (m ≫= k) w = (inl e, w').
Proof. intros E. unfold mbind, M_bind. by rewrite E. Qed.

Lemma run_load {C A B} (f : C → A) (k : A → M C B) (w : world C) :
  (load f ≫= k) w = k (f (self w)) w.
Proof. reflexivity. Qed.

Arguments isinstance : simpl never.
Arguments callable : simpl never.
Arguments getattr : simpl never.

(** Unfolds the monad down to the state-passing function it stands for. *)
Ltac run := unfold mbind, mret, M_bind, M_ret, load, store, raise, outside; simpl.

(** ** The embedding at work *)

Example format_of_values :
  py_format (VInt (-12)) = "-12" ∧ py_format (VBool true) = "True"
  ∧ py_format VNone = "None" ∧ py_format (VStr "abc") = "abc".
Proof. by repeat split. Qed.

(** A string is an [Iterable] and is kept; so is an async generator. *)
Example stream_keeps_iterables :
  Stream.__init__ Samples.call (Samples.stream_of (VStr "chunk")) []
  = (inr tt, World (Samples.stream_of (VStr "chunk")) [])
  ∧ Stream.__init__ Samples.call
      (Samples.stream_of (VObj (PyObj 10 Samples.async_generator_type true "<async_generator>"))) []
    = (inr tt,
       World (Samples.stream_of
                (VObj (PyObj 10 Samples.async_generator_type true "<async_generator>"))) []).
Proof. by split. Qed.

(** A callable that raises ends the construction with its own exception. *)
Example stream_callable_raises :
  Stream.__init__ Samples.call (Samples.stream_of (VObj Samples.fs_open)) []
  = (inl (Raised Samples.fs_open),
     World (Samples.stream_of (VObj Samples.fs_open)) [Called Samples.fs_open]).
Proof. reflexivity. Qed.

(** An [info] attribute that is not callable does not make a file system. *)
Example file_system_with_plain_info :
  File.__init__ Samples.os_stat
    (Samples.file_of "/srv/report.pdf" None
       (Instance_ Samples.fs
          (<["info" := VInt 3]> {["open" := VObj Samples.fs_open]}))) []
  = (inl (ImproperlyConfiguredException
            "file_system must adhere to the FileSystemProtocol type"),
     World (Samples.file_of "/srv/report.pdf" None
              (Instance_ Samples.fs
                 (<["info" := VInt 3]> {["open" := VObj Samples.fs_open]}))) []).
Proof. reflexivity. Qed.

(** ** Template *)

Lemma create_template_context_run (t : Template.t) tr (request : Request) :
  Template.create_template_context request (World t tr) =
  (inr (<["csrf_input" :=
            VStr (Template.csrf_input
                    (default (VStr "") (scope request !! "_csrf_token")))]>
          (<["request" := VObj (request_obj request)]> (Template.context t))),
   World t tr).
Proof. reflexivity. Qed.


Lemma template_to_response_run (t : Template.t) tr headers media_type
    status_code app request :
  truthy (template_engine app) = true →
  Template.to_response headers media_type status_code app request (World t tr) =
  (inr (TemplateResponse.mk (Template.background t)
          (<["csrf_input" :=
               VStr (Template.csrf_input
                       (default (VStr "") (scope request !! "_csrf_token")))]>
             (<["request" := VObj (request_obj request)]> (Template.context t)))
          (Template.encoding t) headers status_code (template_engine app)
          (Template.name t) media_type),
   World t tr).
Proof.
  intros Hengine. unfold Template.to_response. rewrite Hengine. reflexivity.
Qed.

Lemma template_to_response_raise (t : Template.t) tr headers media_type
    status_code app request :
  truthy (template_engine app) = false →
  Template.to_response headers media_type status_code app request (World t tr) =
  (inl (ImproperlyConfiguredException "Template engine is not configured"),
   World t tr).
Proof.
  intros Hengine. unfold Template.to_response. rewrite Hengine. reflexivity.
Qed.



(** C2. [Template.to_response] raises [ImproperlyConfiguredException] when
    the application's template engine is not configured, that is [None] or
    any other false value, whatever the container and its context; when an
    engine is configured it raises nothing and returns a [TemplateResponse]. *)
Theorem template_engine_required (t : Template.t) (tr : list event)
    headers media_type status_code (app : Starlite) (request : Request) :
  (template_engine app = VNone ∨ truthy (template_engine app) = false →
     ∃ detail,
       Template.to_response headers media_type status_code app request
         (World t tr) = (inl (ImproperlyConfiguredException detail), World t tr))
  ∧ (truthy (template_engine app) = true →
     ∃ resp : TemplateResponse.t,
       Template.to_response headers media_type status_code app request
         (World t tr) = (inr resp, World t tr)
       ∧ TemplateResponse.template_engine resp = template_engine app
       ∧ TemplateResponse.template_name resp = Template.name t).
Proof.
  split.
  - intros Hnone.
    assert (truthy (template_engine app) = false) as Hfalse.
    { destruct Hnone as [-> | H]; [reflexivity | exact H]. }
    eexists. by apply template_to_response_raise.
  - intros Hengine. eexists. split; [by apply template_to_response_run|].
    split; reflexivity.
Qed.

Lemma template_engine_required_witness :
  (∃ detail,
     Template.to_response ∅ (VStr "text/html") 200 Samples.app_without_engine
       Samples.request_without_token (World Samples.index_page [])
     = (inl (ImproperlyConfiguredException detail), World Samples.index_page []))
  ∧ (∃ resp : TemplateResponse.t,
       Template.to_response ∅ (VStr "text/html") 200 Samples.app_with_engine
         Samples.request_without_token (World Samples.index_page [])
       = (inr resp, World Samples.index_page [])
       ∧ TemplateResponse.template_engine resp = VObj Samples.engine
       ∧ TemplateResponse.template_name resp = "index.html").
Proof.
  split.
  - apply (template_engine_required Samples.index_page [] ∅ (VStr "text/html")
             200 Samples.app_without_engine Samples.request_without_token).
    left. reflexivity.
  - apply (template_engine_required Samples.index_page [] ∅ (VStr "text/html")
             200 Samples.app_with_engine Samples.request_without_token).
    reflexivity.
Defined.

(** ** Redirect *)

Lemma redirect_to_response_run (c : Redirect.t) tr headers media_type
    status_code app request :
  Redirect.to_response headers media_type status_code app request (World c tr) =
  (inr (RedirectResponse.mk (Redirect.background c) (Redirect.encoding c)
          headers status_code (Redirect.path c)),
   World c tr).
Proof. reflexivity. Qed.

(** C7. [Redirect.to_response] returns a redirect response whose target is
    the container's path and whose status code is the [status_code]
    argument; the result is the same for any two [media_type] arguments.
    In particular [Redirect(path="/login")] converted with status code 302
    gives a response with target [/login] and status 302. *)
Theorem redirect_target_and_status (c : Redirect.t) (tr : list event)
    headers (media_type media_type' : value) (status_code : Z)
    (app : Starlite) (request : Request) :
  (∃ resp : RedirectResponse.t,
     Redirect.to_response headers media_type status_code app request
       (World c tr) = (inr resp, World c tr)
     ∧ RedirectResponse.url resp = Redirect.path c
     ∧ RedirectResponse.status_code resp = status_code)
  ∧ Redirect.to_response headers media_type status_code app request (World c tr)
    = Redirect.to_response headers media_type' status_code app request (World c tr)
  ∧ (∃ resp : RedirectResponse.t,
       (Redirect.__init__ (Redirect.defaults "/login") tr).1 = inr tt
       ∧ Redirect.to_response ∅ (VStr "text/html") 302 app request
           (Redirect.__init__ (Redirect.defaults "/login") tr).2
         = (inr resp, World (Redirect.defaults "/login") tr)
       ∧ RedirectResponse.url resp = "/login"
       ∧ RedirectResponse.status_code resp = 302).
Proof.
  split; [|split].
  - eexists. rewrite redirect_to_response_run. by split.
  - by rewrite !redirect_to_response_run.
  - eexists. simpl. rewrite redirect_to_response_run. by split.
Qed.



(** ** Stream *)

(** Every [Iterator] is an [Iterable] and every [AsyncIterator] an
    [AsyncIterable]. *)
Lemma Iterator_is_Iterable (v : value) :
  instance_of v Iterator = true → instance_of v Iterable = true.
Proof. simpl. intros H. by apply andb_true_iff in H as [? _]. Qed.

Lemma AsyncIterator_is_AsyncIterable (v : value) :
  instance_of v AsyncIterator = true → instance_of v AsyncIterable = true.
Proof. simpl. intros H. by apply andb_true_iff in H as [? _]. Qed.

(** So the test over the four classes in [__post_init__] and the test over
    two of them in [to_response] agree. *)
Lemma isinstance_four_two (v : value) :
  isinstance v [Iterable; Iterator; AsyncIterable; AsyncIterator] =
  isinstance v [Iterable; AsyncIterable].
Proof.
  unfold isinstance. simpl.
  destruct (has_iter (type_of v)), (has_aiter (type_of v)); simpl;
    rewrite ?orb_true_r, ?orb_false_r; reflexivity.
Qed.

Section stream_facts.

Variable call : pyobj → world Stream.t → (exn + value) * Stream.t.

Lemma invoke_run (o : pyobj) (w : world Stream.t) :
  has_call (obj_type o) = true →
  Stream.invoke call (VObj o) w =
  ((call o w).1, World (call o w).2 (trace w ++ [Called o])).
Proof.
  intros Hcall. unfold Stream.invoke. rewrite Hcall.
  by destruct (call o w).
Qed.

(** An iterable is kept as it is. *)
Lemma post_init_iterable (w : world Stream.t) :
  isinstance (Stream.iterator (self w))
    [Iterable; Iterator; AsyncIterable; AsyncIterator] = true →
  Stream.__post_init__ call w = (inr tt, w).
Proof.
  intros Hit. unfold Stream.__post_init__. run.
  rewrite Hit. simpl. by rewrite Hit.
Qed.

(** Neither iterable nor callable: nothing is called, the error is raised. *)
Lemma post_init_plain (w : world Stream.t) :
  isinstance (Stream.iterator (self w))
    [Iterable; Iterator; AsyncIterable; AsyncIterator] = false →
  callable (Stream.iterator (self w)) = false →
  Stream.__post_init__ call w =
  (inl (ImproperlyConfiguredException
     "iterator must be either an iterator or a callable that returns an iterator"),
   w).
Proof.
  intros Hit Hcall. unfold Stream.__post_init__. run.
  by rewrite Hit, Hcall; simpl; rewrite Hit.
Qed.

(** A callable that is not iterable is called, once, and what it returns
    is stored and then tested. *)
Lemma post_init_callable (w : world Stream.t) (o : pyobj) (v : value)
    (s : Stream.t) :
  Stream.iterator (self w) = VObj o →
  isinstance (VObj o) [Iterable; Iterator; AsyncIterable; AsyncIterator] = false →
  has_call (obj_type o) = true →
  call o w = (inr v, s) →
  Stream.__post_init__ call w =
  ((if isinstance v [Iterable; Iterator; AsyncIterable; AsyncIterator]
    then inr tt
    else inl (ImproperlyConfiguredException
      "iterator must be either an iterator or a callable that returns an iterator")),
   World (Stream.set_iterator v s) (trace w ++ [Called o])).
Proof.
  intros Hfield Hit Hcall Hret.
  unfold Stream.__post_init__.
  rewrite run_load, Hfield, Hit. unfold callable. simpl type_of.
  rewrite Hcall. simpl andb. cbv iota.
  unfold mbind at 1, M_bind at 1.
  rewrite run_load, Hfield.
  erewrite run_bind; [| rewrite invoke_run by done; rewrite Hret; reflexivity].
  run. by destruct (isinstance v _).
Qed.

(** After a construction that succeeded the field is an iterable. *)
Lemma post_init_establishes (w w' : world Stream.t) :
  Stream.__post_init__ call w = (inr tt, w') →
  isinstance (Stream.iterator (self w')) [Iterable; AsyncIterable] = true.
Proof.
  rewrite <- isinstance_four_two.
  destruct (isinstance (Stream.iterator (self w))
              [Iterable; Iterator; AsyncIterable; AsyncIterator]) eqn:Hit.
  - rewrite post_init_iterable by done. intros [= <-]. exact Hit.
  - destruct (callable (Stream.iterator (self w))) eqn:Hcall.
    + destruct (Stream.iterator (self w)) as [| | | |o] eqn:Hfield;
        try discriminate Hcall.
      destruct (call o w) as [[e|v] s] eqn:Hret.
      * unfold Stream.__post_init__.
        rewrite run_load, Hfield, Hit. unfold callable in *. rewrite Hcall.
        simpl andb. cbv iota. unfold mbind at 1, M_bind at 1.
        rewrite run_load, Hfield.
        erewrite run_bind_raise;
          [| rewrite invoke_run by done; rewrite Hret; reflexivity].
        discriminate.
      * rewrite (post_init_callable w o v s) by done.
        destruct (isinstance v _) eqn:Hv; [|discriminate].
        intros [= <-]. exact Hv.
    + rewrite post_init_plain by done. discriminate.
Qed.

(** On an iterable field the conversion takes the first branch: it calls
    nothing and writes nothing. *)
Lemma stream_to_response_iterable (w : world Stream.t) headers media_type
    status_code app request :
  isinstance (Stream.iterator (self w)) [Iterable; AsyncIterable] = true →
  Stream.to_response call headers media_type status_code app request w =
  (inr (StreamingResponse.mk (Stream.background (self w))
          (Stream.iterator (self w)) (Stream.encoding (self w))
          headers media_type status_code),
   w).
Proof.
  intros Hit. unfold Stream.to_response. run. by rewrite Hit.
Qed.

End stream_facts.

Lemma calls_in_snoc (tr : list event) (o : pyobj) :
  calls_in (tr ++ [Called o]) = S (calls_in tr).
Proof.
  unfold calls_in. rewrite List.filter_app, length_app. simpl. lia.
Qed.

(** C3. When the [iterator] given to [Stream] is a callable that is not
    itself iterable and that, called with no argument, returns an iterable
    (sync or async), the construction succeeds, the callable is invoked
    exactly once in its course, and the [iterator] field then holds the
    iterable that this one invocation returned. *)
Theorem stream_callable_is_called_once
    (call : pyobj → world Stream.t → (exn + value) * Stream.t)
    (fields : Stream.t) (tr : list event) (o : pyobj) (v : value)
    (s : Stream.t) :
  Stream.iterator fields = VObj o →
  callable (VObj o) = true →
  isinstance (VObj o) [Iterable; Iterator; AsyncIterable; AsyncIterator] = false →
  call o (World fields tr) = (inr v, s) →
  isinstance v [Iterable; AsyncIterable] = true →
  ∃ w : world Stream.t,
    Stream.__init__ call fields tr = (inr tt, w)
    ∧ trace w = tr ++ [Called o]
    ∧ calls_in (trace w) = S (calls_in tr)
    ∧ Stream.iterator (self w) = v.
Proof.
  intros Hfield Hcall Hit Hret Hv.
  exists (World (Stream.set_iterator v s) (tr ++ [Called o])).
  split; [|split; [reflexivity|split; [apply calls_in_snoc|reflexivity]]].
  unfold Stream.__init__.
  rewrite (post_init_callable call (World fields tr) o v s Hfield Hit Hcall Hret).
  by rewrite isinstance_four_two, Hv.
Qed.

Lemma stream_callable_is_called_once_witness :
  ∃ w : world Stream.t,
    Stream.__init__ Samples.call (Samples.stream_of (VObj Samples.make_chunks)) []
    = (inr tt, w)
    ∧ trace w = [Called Samples.make_chunks]
    ∧ calls_in (trace w) = 1%nat
    ∧ Stream.iterator (self w) = VObj Samples.chunks.
Proof.
  apply (stream_callable_is_called_once Samples.call
           (Samples.stream_of (VObj Samples.make_chunks)) []
           Samples.make_chunks (VObj Samples.chunks)
           (Samples.stream_of (VObj Samples.make_chunks)));
    reflexivity.
Defined.

(** C4. [Stream] construction raises [ImproperlyConfiguredException] when
    the [iterator] given is neither iterable (an [Iterable], [Iterator],
    [AsyncIterable] or [AsyncIterator]) nor callable, and when it is a
    callable whose one invocation returns a value that is not iterable. *)
Theorem stream_rejects_non_iterables
    (call : pyobj → world Stream.t → (exn + value) * Stream.t)
    (fields : Stream.t) (tr : list event) :
  (isinstance (Stream.iterator fields)
     [Iterable; Iterator; AsyncIterable; AsyncIterator] = false →
   callable (Stream.iterator fields) = false →
   ∃ detail,
     Stream.__init__ call fields tr =
     (inl (ImproperlyConfiguredException detail), World fields tr))
  ∧ (∀ (o : pyobj) (v : value) (s : Stream.t),
       Stream.iterator fields = VObj o →
       callable (VObj o) = true →
       isinstance (VObj o)
         [Iterable; Iterator; AsyncIterable; AsyncIterator] = false →
       call o (World fields tr) = (inr v, s) →
       isinstance v [Iterable; Iterator; AsyncIterable; AsyncIterator] = false →
       ∃ detail w,
         Stream.__init__ call fields tr =
         (inl (ImproperlyConfiguredException detail), w)
         ∧ trace w = tr ++ [Called o]).
Proof.
  split.
  - intros Hit Hcall. eexists. unfold Stream.__init__.
    by apply post_init_plain.
  - intros o v s Hfield Hcall Hit Hret Hv. do 2 eexists.
    unfold Stream.__init__.
    rewrite (post_init_callable call (World fields tr) o v s Hfield Hit Hcall Hret), Hv.
    split; reflexivity.
Qed.

Lemma stream_rejects_non_iterables_witness :
  (∃ detail,
     Stream.__init__ Samples.call (Samples.stream_of (VInt 7)) [] =
     (inl (ImproperlyConfiguredException detail),
      World (Samples.stream_of (VInt 7)) []))
  ∧ (∃ detail w,
       Stream.__init__ Samples.call
         (Samples.stream_of (VObj Samples.make_seven)) [] =
       (inl (ImproperlyConfiguredException detail), w)
       ∧ trace w = [Called Samples.make_seven]).
Proof.
  split.
  - apply (proj1 (stream_rejects_non_iterables Samples.call
                    (Samples.stream_of (VInt 7)) [])); reflexivity.
  - apply (proj2 (stream_rejects_non_iterables Samples.call
                    (Samples.stream_of (VObj Samples.make_seven)) [])
             Samples.make_seven (VInt 7)
             (Samples.stream_of (VObj Samples.make_seven)));
      reflexivity.
Defined.

(** The branch of [Stream.to_response] that calls the stored value is live
    code on a container whose field was set after construction: the callable
    is invoked, and here it also changes the container. *)
Example stream_fallback_on_reassigned_field :
  Stream.to_response Samples.call ∅ VNone 200 Samples.app_with_engine
    Samples.request_without_token
    (World (Samples.stream_of (VObj Samples.rename)) [])
  = (inr (StreamingResponse.mk VNone (VObj Samples.chunks) "latin-1" ∅ VNone 200),
     World (Stream.mk (VObj Samples.rename) VNone ∅ [] VNone "latin-1")
       [Called Samples.rename]).
Proof. reflexivity. Qed.

(** C10. On a [Stream] that was constructed successfully, the branch of
    [Stream.to_response] that would invoke the stored value is never taken:
    the [iterator] field left by [__post_init__] passes the test for
    [Iterable] or [AsyncIterable] (every [Iterator] being an [Iterable] and
    every [AsyncIterator] an [AsyncIterable]), so the conversion hands the
    field itself to the response and calls nothing. *)
Theorem stream_fallback_unreachable
    (call : pyobj → world Stream.t → (exn + value) * Stream.t)
    (fields : Stream.t) (tr : list event) (w : world Stream.t) :
  Stream.__init__ call fields tr = (inr tt, w) →
  isinstance (Stream.iterator (self w)) [Iterable; AsyncIterable] = true
  ∧ (∀ v, instance_of v Iterator = true → instance_of v Iterable = true)
  ∧ (∀ v, instance_of v AsyncIterator = true → instance_of v AsyncIterable = true)
  ∧ (∀ headers media_type status_code app request,
       ∃ resp : StreamingResponse.t,
         Stream.to_response call headers media_type status_code app request w
         = (inr resp, w)
         ∧ StreamingResponse.content resp = Stream.iterator (self w)
         ∧ calls_in
             (trace (Stream.to_response call headers media_type status_code
                       app request w).2) = calls_in (trace w)).
Proof.
  intros Hinit. apply post_init_establishes in Hinit as Hit.
  split; [exact Hit|].
  split; [exact Iterator_is_Iterable|].
  split; [exact AsyncIterator_is_AsyncIterable|].
  intros headers media_type status_code app request. eexists.
  rewrite stream_to_response_iterable by exact Hit.
  split; [reflexivity|]. split; reflexivity.
Qed.

Lemma stream_fallback_unreachable_witness :
  isinstance (VObj Samples.chunks) [Iterable; AsyncIterable] = true
  ∧ ∃ resp : StreamingResponse.t,
      Stream.to_response Samples.call ∅ (VStr "text/plain") 200
        Samples.app_without_engine Samples.request_without_token
        (World (Samples.stream_of (VObj Samples.chunks))
           [Called Samples.make_chunks])
      = (inr resp,
         World (Samples.stream_of (VObj Samples.chunks))
           [Called Samples.make_chunks])
      ∧ StreamingResponse.content resp = VObj Samples.chunks.
Proof.
  destruct (stream_fallback_unreachable Samples.call
              (Samples.stream_of (VObj Samples.make_chunks)) []
              (World (Samples.stream_of (VObj Samples.chunks))
                 [Called Samples.make_chunks]) eq_refl)
    as (Hit & _ & _ & Hconv).
  split; [exact Hit|].
  destruct (Hconv ∅ (VStr "text/plain") 200 Samples.app_without_engine
              Samples.request_without_token) as (resp & Hrun & Hcontent & _).
  by exists resp.
Defined.

(** ** File *)

Lemma getattr_callable (fs : instance) (name : string) :
  callable (getattr fs name VNone) = provides fs name.
Proof.
  unfold getattr, provides. by destruct (inst_attrs fs !! name).
Qed.

Lemma stats_in_snoc (tr : list event) (p : string) :
  stats_in (tr ++ [Stat p]) = S (stats_in tr).
Proof.
  unfold stats_in. rewrite List.filter_app, length_app. simpl. lia.
Qed.

Section file_facts.

Variable os_stat : string → option os_stat_result.

(** The capability check comes first and, failing, ends the method. *)
Lemma file_post_init_invalid (w : world File.t) :
  provides (File.file_system (self w)) "info"
    && provides (File.file_system (self w)) "open" = false →
  File.__post_init__ os_stat w =
  (inl (ImproperlyConfiguredException
          "file_system must adhere to the FileSystemProtocol type"), w).
Proof.
  intros Hfs. unfold File.__post_init__.
  rewrite run_load, !getattr_callable, Hfs. reflexivity.
Qed.

(** Past the check, the method is the resolution of [stat_result]. *)
Lemma file_post_init_valid (w : world File.t) :
  provides (File.file_system (self w)) "info"
    && provides (File.file_system (self w)) "open" = true →
  File.__post_init__ os_stat w =
  match File.stat_result (self w) with
  | Some _ => (inr tt, w)
  | None =>
      match os_stat (File.path (self w)) with
      | Some r =>
          (inr tt,
           World (File.set_stat_result (Some r) (self w))
             (trace w ++ [Stat (File.path (self w))]))
      | None =>
          (inl (OSError (File.path (self w))),
           World (self w) (trace w ++ [Stat (File.path (self w))]))
      end
  end.
Proof.
  intros Hfs. unfold File.__post_init__.
  rewrite run_load, !getattr_callable, Hfs. simpl negb. cbv iota.
  unfold File.Path_stat. run.
  destruct (File.stat_result (self w)); simpl; [reflexivity|].
  by destruct (os_stat (File.path (self w))).
Qed.

End file_facts.

Lemma file_to_response_run (w : world File.t) headers media_type status_code
    app request :
  File.to_response headers media_type status_code app request w =
  (inr (FileResponse.mk (File.background (self w)) (File.chunk_size (self w))
          (File.content_disposition_type (self w)) (File.encoding (self w))
          (File.etag (self w)) (File.file_info (self w))
          (File.file_system (self w)) (File.filename (self w)) headers
          media_type (File.path (self w)) (File.stat_result (self w))
          status_code),
   w).
Proof. reflexivity. Qed.

(** C5. When the [file_system] given to [File] lacks the attribute [info]
    or the attribute [open], or has it but not callable, the construction
    raises [ImproperlyConfiguredException]; the check precedes the
    resolution of [stat_result]: no [stat] has been called and no field has
    been written when the exception leaves. *)
Theorem file_rejects_invalid_file_system
    (os_stat : string → option os_stat_result) (fields : File.t)
    (tr : list event) :
  provides (File.file_system fields) "info" = false
    ∨ provides (File.file_system fields) "open" = false →
  ∃ (detail : string) (w : world File.t),
    File.__init__ os_stat fields tr = (inl (ImproperlyConfiguredException detail), w)
    ∧ self w = fields
    ∧ trace w = tr
    ∧ stats_in (trace w) = stats_in tr.
Proof.
  intros Hlacks. exists "file_system must adhere to the FileSystemProtocol type".
  exists (World fields tr). split; [|by repeat split].
  apply file_post_init_invalid. simpl.
  destruct Hlacks as [-> | ->]; [reflexivity | apply andb_false_r].
Qed.

Lemma file_rejects_invalid_file_system_witness :
  ∃ (detail : string) (w : world File.t),
    File.__init__ Samples.os_stat
      (Samples.file_of "/srv/report.pdf" None Samples.read_only_fs) []
    = (inl (ImproperlyConfiguredException detail), w)
    ∧ self w = Samples.file_of "/srv/report.pdf" None Samples.read_only_fs
    ∧ trace w = []
    ∧ stats_in (trace w) = 0%nat.
Proof.
  apply (file_rejects_invalid_file_system Samples.os_stat
           (Samples.file_of "/srv/report.pdf" None Samples.read_only_fs) []).
  right. reflexivity.
Defined.

(** C6, as the code has it.  When the [file_system] given to [File] has
    callable [info] and [open], the construction never raises
    [ImproperlyConfiguredException].  A [stat_result] that was supplied is
    kept unchanged, no [stat] is called and the construction succeeds.
    When none was supplied, [stat] is called once, on [path]: if it returns,
    the construction succeeds with its result in the field; if it raises,
    the construction fails with that [OSError]. *)
Theorem file_stat_resolution
    (os_stat : string → option os_stat_result) (fields : File.t)
    (tr : list event) :
  provides (File.file_system fields) "info" = true →
  provides (File.file_system fields) "open" = true →
  (∀ detail w, File.__init__ os_stat fields tr
               ≠ (inl (ImproperlyConfiguredException detail), w))
  ∧ (∀ r, File.stat_result fields = Some r →
       File.__init__ os_stat fields tr = (inr tt, World fields tr))
  ∧ (∀ r, File.stat_result fields = None →
       os_stat (File.path fields) = Some r →
       ∃ w, File.__init__ os_stat fields tr = (inr tt, w)
            ∧ File.stat_result (self w) = Some r
            ∧ trace w = tr ++ [Stat (File.path fields)]
            ∧ stats_in (trace w) = S (stats_in tr))
  ∧ (File.stat_result fields = None →
     os_stat (File.path fields) = None →
     ∃ w, File.__init__ os_stat fields tr = (inl (OSError (File.path fields)), w)
          ∧ self w = fields
          ∧ trace w = tr ++ [Stat (File.path fields)]).
Proof.
  intros Hinfo Hopen.
  assert (File.__init__ os_stat fields tr =
          match File.stat_result fields with
          | Some _ => (inr tt, World fields tr)
          | None =>
              match os_stat (File.path fields) with
              | Some r =>
                  (inr tt, World (File.set_stat_result (Some r) fields)
                             (tr ++ [Stat (File.path fields)]))
              | None =>
                  (inl (OSError (File.path fields)),
                   World fields (tr ++ [Stat (File.path fields)]))
              end
          end) as Hrun.
  { unfold File.__init__. rewrite file_post_init_valid; [reflexivity|].
    simpl. by rewrite Hinfo, Hopen. }
  rewrite Hrun. clear Hrun. split; [|split; [|split]].
  - intros detail w.
    destruct (File.stat_result fields); [discriminate|].
    destruct (os_stat (File.path fields)); discriminate.
  - intros r ->. reflexivity.
  - intros r -> ->. eexists. split; [reflexivity|].
    split; [reflexivity|]. split; [reflexivity|]. apply stats_in_snoc.
  - intros -> ->. eexists. split; [reflexivity|]. by split.
Qed.

Lemma file_stat_resolution_witness :
  (File.__init__ Samples.os_stat
     (Samples.file_of "/tmp/x" (Some Samples.report_stat) Samples.local_fs) []
   = (inr tt,
      World (Samples.file_of "/tmp/x" (Some Samples.report_stat) Samples.local_fs)
        []))
  ∧ (∃ w, File.__init__ Samples.os_stat
            (Samples.file_of "/srv/report.pdf" None Samples.local_fs) []
          = (inr tt, w)
          ∧ File.stat_result (self w) = Some Samples.report_stat
          ∧ trace w = [Stat "/srv/report.pdf"]
          ∧ stats_in (trace w) = 1%nat).
Proof.
  split.
  - apply (proj1 (proj2 (file_stat_resolution Samples.os_stat
                    (Samples.file_of "/tmp/x" (Some Samples.report_stat)
                       Samples.local_fs) [] eq_refl eq_refl))
             Samples.report_stat).
    reflexivity.
  - apply (proj1 (proj2 (proj2 (file_stat_resolution Samples.os_stat
                    (Samples.file_of "/srv/report.pdf" None Samples.local_fs)
                    [] eq_refl eq_refl)))
             Samples.report_stat); reflexivity.
Defined.

(** C6 fails as stated: with a [file_system] that has callable [info] and
    [open], no [stat_result] and a path at which there is no file, the
    construction does not succeed; the [OSError] of [stat] leaves it. *)
Lemma file_missing_path_not_constructed :
  provides Samples.local_fs "info" = true
  ∧ provides Samples.local_fs "open" = true
  ∧ File.__init__ Samples.os_stat
      (Samples.file_of "/srv/missing.pdf" None Samples.local_fs) []
    = (inl (OSError "/srv/missing.pdf"),
       World (Samples.file_of "/srv/missing.pdf" None Samples.local_fs)
         [Stat "/srv/missing.pdf"]).
Proof. repeat split. Qed.

(** ** All four containers *)

Lemma template_to_response_world (w : world Template.t) headers media_type
    status_code app request :
  (Template.to_response headers media_type status_code app request w).2 = w.
Proof.
  destruct w as [t tr].
  destruct (truthy (template_engine app)) eqn:Hengine.
  - by rewrite template_to_response_run.
  - by rewrite template_to_response_raise.
Qed.

(** C9. Converting a container leaves each of its fields as it was: for
    [File], [Redirect] and [Template] in any state, and for a [Stream] that
    was constructed, [to_response] returns with the very world it was
    called in, having written no field and called nothing outside. *)
Theorem to_response_changes_nothing
    (call : pyobj → world Stream.t → (exn + value) * Stream.t)
    (fields : Stream.t) (tr : list event) (ws : world Stream.t) :
  Stream.__init__ call fields tr = (inr tt, ws) →
  (∀ w : world File.t, conversion_is_pure File_container w)
  ∧ (∀ w : world Redirect.t, conversion_is_pure Redirect_container w)
  ∧ (∀ w : world Template.t, conversion_is_pure Template_container w)
  ∧ conversion_is_pure (Stream_container call) ws
  ∧ (∀ headers media_type status_code app request,
       self (Stream.to_response call headers media_type status_code app
               request ws).2 = self ws).
Proof.
  intros Hinit. apply post_init_establishes in Hinit as Hit.
  split; [|split; [|split; [|split]]].
  - intros w headers media_type status_code app request.
    unfold rc_to_response, File_container.
    by rewrite file_to_response_run.
  - intros [c tr'] headers media_type status_code app request.
    unfold rc_to_response, Redirect_container.
    by rewrite redirect_to_response_run.
  - intros w headers media_type status_code app request.
    apply template_to_response_world.
  - intros headers media_type status_code app request.
    unfold rc_to_response, Stream_container.
    by rewrite stream_to_response_iterable.
  - intros headers media_type status_code app request.
    by rewrite stream_to_response_iterable.
Qed.

Lemma to_response_changes_nothing_witness :
  (∀ w : world File.t, conversion_is_pure File_container w)
  ∧ (∀ w : world Redirect.t, conversion_is_pure Redirect_container w)
  ∧ (∀ w : world Template.t, conversion_is_pure Template_container w)
  ∧ conversion_is_pure (Stream_container Samples.call)
      (World (Samples.stream_of (VObj Samples.chunks))
         [Called Samples.make_chunks])
  ∧ (∀ headers media_type status_code app request,
       self (Stream.to_response Samples.call headers media_type status_code app
               request
               (World (Samples.stream_of (VObj Samples.chunks))
                  [Called Samples.make_chunks])).2
       = Samples.stream_of (VObj Samples.chunks)).
Proof.
  apply (to_response_changes_nothing Samples.call
           (Samples.stream_of (VObj Samples.make_chunks)) []
           (World (Samples.stream_of (VObj Samples.chunks))
              [Called Samples.make_chunks])).
  reflexivity.
Defined.

(** * Further properties of the containers *)

(** ** File: what a construction does and leaves *)

(** X1. A [File] whose construction succeeded has a file system with
    callable [info] and [open] and a [stat_result] that is set: the one
    supplied, or else what [stat] found at [path].  Every other field is as
    it was given, and the [FileResponse] made from the container carries
    this [stat_result], this path and this file system. *)
Theorem file_constructed_invariant
    (os_stat : string → option os_stat_result) (fields : File.t)
    (tr : list event) (w : world File.t) :
  File.__init__ os_stat fields tr = (inr tt, w) →
  provides (File.file_system (self w)) "info" = true
  ∧ provides (File.file_system (self w)) "open" = true
  ∧ is_Some (File.stat_result (self w))
  ∧ (File.stat_result fields = None →
       File.stat_result (self w) = os_stat (File.path fields))
  ∧ (is_Some (File.stat_result fields) →
       File.stat_result (self w) = File.stat_result fields)
  ∧ self w = File.set_stat_result (File.stat_result (self w)) fields
  ∧ (∀ headers media_type status_code app request,
       ∃ resp : FileResponse.t,
         File.to_response headers media_type status_code app request w
         = (inr resp, w)
         ∧ FileResponse.stat_result resp = File.stat_result (self w)
         ∧ FileResponse.path resp = File.path fields
         ∧ FileResponse.file_system resp = File.file_system fields).
Proof.
  unfold File.__init__. intros Hinit.
  destruct (provides (File.file_system fields) "info"
            && provides (File.file_system fields) "open") eqn:Hfs.
  - rewrite file_post_init_valid in Hinit by exact Hfs. simpl in Hinit.
    apply andb_true_iff in Hfs as [Hinfo Hopen].
    destruct fields as [p bg hd ck mt enc fn sr cs cdt et fs fi]. simpl in *.
    destruct sr as [r|].
    + injection Hinit as <-. simpl. split_and!; try done.
      intros. eexists. by rewrite file_to_response_run.
    + destruct (os_stat p) as [r|] eqn:Hstat; [|discriminate].
      injection Hinit as <-. simpl. split_and!; try done.
      intros. eexists. by rewrite file_to_response_run.
  - rewrite file_post_init_invalid in Hinit by exact Hfs. discriminate.
Qed.

Lemma file_constructed_invariant_witness :
  is_Some (File.stat_result
             (self (File.__init__ Samples.os_stat
                      (Samples.file_of "/srv/report.pdf" None Samples.local_fs)
                      []).2))
  ∧ File.stat_result
      (self (File.__init__ Samples.os_stat
               (Samples.file_of "/srv/report.pdf" None Samples.local_fs) []).2)
    = Some Samples.report_stat.
Proof.
  destruct (file_constructed_invariant Samples.os_stat
              (Samples.file_of "/srv/report.pdf" None Samples.local_fs) []
              (File.__init__ Samples.os_stat
                 (Samples.file_of "/srv/report.pdf" None Samples.local_fs) []).2
              eq_refl)
    as (_ & _ & Hset & Hresolved & _).
  split; [exact Hset|]. by rewrite Hresolved.
Defined.


(** ** Stream: every way a construction and a conversion can go *)

Section stream_outcomes.

Variable call : pyobj → world Stream.t → (exn + value) * Stream.t.

(** A callable that raises: the exception leaves [__post_init__] before the
    assignment and before the second test. *)
Lemma post_init_callable_raises (w : world Stream.t) (o : pyobj) (e : exn)
    (s : Stream.t) :
  Stream.iterator (self w) = VObj o →
  isinstance (VObj o) [Iterable; Iterator; AsyncIterable; AsyncIterator] = false →
  has_call (obj_type o) = true →
  call o w = (inl e, s) →
  Stream.__post_init__ call w = (inl e, World s (trace w ++ [Called o])).
Proof.
  intros Hfield Hit Hcall Hret. unfold Stream.__post_init__.
  rewrite run_load, Hfield, Hit. unfold callable. simpl type_of.
  rewrite Hcall. simpl andb. cbv iota. unfold mbind at 1, M_bind at 1.
  rewrite run_load, Hfield.
  erewrite run_bind_raise; [reflexivity|].
  rewrite invoke_run by done. by rewrite Hret.
Qed.

(** The second branch of the conditional expression in [to_response]. *)
Lemma stream_to_response_fallback (w : world Stream.t) (o : pyobj)
    headers media_type status_code app request :
  Stream.iterator (self w) = VObj o →
  isinstance (VObj o) [Iterable; AsyncIterable] = false →
  has_call (obj_type o) = true →
  Stream.to_response call headers media_type status_code app request w =
  (match (call o w).1 with
   | inr v => inr (StreamingResponse.mk (Stream.background (self w)) v
                     (Stream.encoding (call o w).2) headers media_type
                     status_code)
   | inl e => inl e
   end,
   World (call o w).2 (trace w ++ [Called o])).
Proof.
  intros Hfield Hit Hcall. unfold Stream.to_response.
  rewrite !run_load, Hfield, Hit.
  unfold mbind at 1, M_bind at 1. rewrite run_load, Hfield.
  rewrite invoke_run by done.
  by destruct (call o w) as [[e|v] s].
Qed.

End stream_outcomes.

(** X3. When the callable given to [Stream] raises, the construction ends
    with that very exception and the test that follows is not reached: the
    callable has been invoked once, nothing has been assigned to the
    [iterator] field, and the fields are as the callable left them. *)
Theorem stream_callable_exception_propagates
    (call : pyobj → world Stream.t → (exn + value) * Stream.t)
    (fields : Stream.t) (tr : list event) (o : pyobj) (e : exn)
    (s : Stream.t) :
  Stream.iterator fields = VObj o →
  callable (VObj o) = true →
  isinstance (VObj o) [Iterable; Iterator; AsyncIterable; AsyncIterator] = false →
  call o (World fields tr) = (inl e, s) →
  Stream.__init__ call fields tr = (inl e, World s (tr ++ [Called o]))
  ∧ calls_in (trace (Stream.__init__ call fields tr).2) = S (calls_in tr).
Proof.
  intros Hfield Hcall Hit Hret. unfold Stream.__init__.
  rewrite (post_init_callable_raises call (World fields tr) o e s
             Hfield Hit Hcall Hret).
  split; [reflexivity | apply calls_in_snoc].
Qed.

Lemma stream_callable_exception_propagates_witness :
  Stream.__init__ Samples.call (Samples.stream_of (VObj Samples.fs_info)) []
  = (inl (Raised Samples.fs_info),
     World (Samples.stream_of (VObj Samples.fs_info)) ([] ++ [Called Samples.fs_info]))
  ∧ calls_in
      (trace (Stream.__init__ Samples.call
                (Samples.stream_of (VObj Samples.fs_info)) []).2)
    = S (calls_in []).
Proof.
  apply (stream_callable_exception_propagates Samples.call
           (Samples.stream_of (VObj Samples.fs_info)) [] Samples.fs_info
           (Raised Samples.fs_info) (Samples.stream_of (VObj Samples.fs_info)));
    reflexivity.
Defined.

(** X4. Whatever it is given, the construction of a [Stream] invokes at most
    one callable, at most once, and then it is the value given as
    [iterator]; it never calls [stat].  When the value given is iterable
    nothing is invoked, also when the value is callable as well. *)
Theorem stream_construction_footprint
    (call : pyobj → world Stream.t → (exn + value) * Stream.t)
    (fields : Stream.t) (tr : list event) :
  (trace (Stream.__init__ call fields tr).2 = tr
   ∨ ∃ o, Stream.iterator fields = VObj o
          ∧ trace (Stream.__init__ call fields tr).2 = tr ++ [Called o])
  ∧ (calls_in (trace (Stream.__init__ call fields tr).2) ≤ S (calls_in tr))%nat
  ∧ (isinstance (Stream.iterator fields)
       [Iterable; Iterator; AsyncIterable; AsyncIterator] = true →
     Stream.__init__ call fields tr = (inr tt, World fields tr)).
Proof.
  unfold Stream.__init__.
  destruct (isinstance (Stream.iterator fields)
              [Iterable; Iterator; AsyncIterable; AsyncIterator]) eqn:Hit.
  - rewrite post_init_iterable by exact Hit. simpl.
    split; [by left|]. split; [lia|done].
  - destruct (callable (Stream.iterator fields)) eqn:Hcall.
    + destruct (Stream.iterator fields) as [| | | |o] eqn:Hfield;
        try discriminate Hcall.
      assert (∀ r : world Stream.t, trace r = tr ++ [Called o] →
                (trace r = tr ∨ ∃ o', VObj o = VObj o'
                                      ∧ trace r = tr ++ [Called o'])
                ∧ (calls_in (trace r) ≤ S (calls_in tr))%nat) as Hshape.
      { intros r Hr. split; [right; by exists o|].
        rewrite Hr, calls_in_snoc. lia. }
      destruct (call o (World fields tr)) as [[e|v] s] eqn:Hret.
      * rewrite (post_init_callable_raises call (World fields tr) o e s
                   Hfield Hit Hcall Hret).
        destruct (Hshape (World s (tr ++ [Called o])) eq_refl) as (?&?).
        split_and!; try done.
      * rewrite (post_init_callable call (World fields tr) o v s
                   Hfield Hit Hcall Hret).
        destruct (Hshape (World (Stream.set_iterator v s) (tr ++ [Called o]))
                    eq_refl) as (?&?).
        split_and!; try done.
    + rewrite post_init_plain by done. simpl.
      split; [by left|]. split; [lia|discriminate].
Qed.

(** X5. Constructing is idempotent: on a [Stream] whose construction
    succeeded, running [__post_init__] once more succeeds, invokes nothing
    and changes no field. *)
Theorem stream_post_init_idempotent
    (call : pyobj → world Stream.t → (exn + value) * Stream.t)
    (fields : Stream.t) (tr : list event) (w : world Stream.t) :
  Stream.__init__ call fields tr = (inr tt, w) →
  Stream.__post_init__ call w = (inr tt, w).
Proof.
  unfold Stream.__init__. intros Hinit.
  apply post_init_establishes in Hinit.
  apply post_init_iterable. by rewrite isinstance_four_two.
Qed.

Lemma stream_post_init_idempotent_witness :
  Stream.__post_init__ Samples.call
    (World (Samples.stream_of (VObj Samples.chunks)) [Called Samples.make_chunks])
  = (inr tt,
     World (Samples.stream_of (VObj Samples.chunks)) [Called Samples.make_chunks]).
Proof.
  apply (stream_post_init_idempotent Samples.call
           (Samples.stream_of (VObj Samples.make_chunks)) []).
  reflexivity.
Defined.

(** X6. When the [iterator] field does not pass the test of
    [Stream.to_response] (it was assigned after the construction), the
    conversion invokes it once and hands whatever it returns to the
    response, without testing that it is iterable and without storing it in
    the field; the [background] in the response is the one read before the
    call and the [encoding] the one read after it.  A field that is not
    callable either ends the conversion with a [TypeError]. *)
Theorem stream_conversion_of_reassigned_field
    (call : pyobj → world Stream.t → (exn + value) * Stream.t)
    (w : world Stream.t) headers media_type status_code
    (app : Starlite) (request : Request) :
  isinstance (Stream.iterator (self w)) [Iterable; AsyncIterable] = false →
  (callable (Stream.iterator (self w)) = false →
     ∃ msg,
       Stream.to_response call headers media_type status_code app request w
       = (inl (TypeError msg), w))
  ∧ (∀ (o : pyobj) (v : value) (s : Stream.t),
       Stream.iterator (self w) = VObj o →
       callable (VObj o) = true →
       call o w = (inr v, s) →
       Stream.to_response call headers media_type status_code app request w
       = (inr (StreamingResponse.mk (Stream.background (self w)) v
                 (Stream.encoding s) headers media_type status_code),
          World s (trace w ++ [Called o])))
  ∧ (∀ (o : pyobj) (e : exn) (s : Stream.t),
       Stream.iterator (self w) = VObj o →
       callable (VObj o) = true →
       call o w = (inl e, s) →
       Stream.to_response call headers media_type status_code app request w
       = (inl e, World s (trace w ++ [Called o]))).
Proof.
  intros Hit. split; [|split].
  - intros Hcall. exists "object is not callable".
    unfold Stream.to_response. rewrite !run_load, Hit.
    unfold mbind at 1, M_bind at 1. rewrite run_load.
    unfold callable in Hcall.
    destruct (Stream.iterator (self w)) as [| | | |o]; try reflexivity.
    simpl in Hcall. unfold Stream.invoke. by rewrite Hcall.
  - intros o v s Hfield Hcall Hret. rewrite Hfield in Hit.
    rewrite (stream_to_response_fallback call w o) by done.
    by rewrite Hret.
  - intros o e s Hfield Hcall Hret. rewrite Hfield in Hit.
    rewrite (stream_to_response_fallback call w o) by done.
    by rewrite Hret.
Qed.

Lemma stream_conversion_of_reassigned_field_witness :
  (∃ msg,
     Stream.to_response Samples.call ∅ VNone 200 Samples.app_without_engine
       Samples.request_without_token (World (Samples.stream_of (VInt 7)) [])
     = (inl (TypeError msg), World (Samples.stream_of (VInt 7)) []))
  ∧ Stream.to_response Samples.call ∅ VNone 200 Samples.app_without_engine
      Samples.request_without_token
      (World (Samples.stream_of (VObj Samples.make_seven)) [])
    = (inr (StreamingResponse.mk VNone (VInt 7) "utf-8" ∅ VNone 200),
       World (Samples.stream_of (VObj Samples.make_seven))
         [Called Samples.make_seven]).
Proof.
  split.
  - apply (proj1 (stream_conversion_of_reassigned_field Samples.call
                    (World (Samples.stream_of (VInt 7)) []) ∅ VNone 200
                    Samples.app_without_engine Samples.request_without_token
                    eq_refl)).
    reflexivity.
  - apply (proj1 (proj2 (stream_conversion_of_reassigned_field Samples.call
                    (World (Samples.stream_of (VObj Samples.make_seven)) [])
                    ∅ VNone 200 Samples.app_without_engine
                    Samples.request_without_token eq_refl))
             Samples.make_seven (VInt 7)
             (Samples.stream_of (VObj Samples.make_seven)));
      reflexivity.
Defined.

(** X7. From construction to response: when the callable given to [Stream]
    returns an iterable, the response made from the constructed container
    streams that very iterable, and over construction and conversion
    together the callable has been invoked exactly once. *)
Theorem stream_lifecycle_invokes_once
    (call : pyobj → world Stream.t → (exn + value) * Stream.t)
    (fields : Stream.t) (tr : list event) (o : pyobj) (v : value)
    (s : Stream.t) headers media_type status_code
    (app : Starlite) (request : Request) :
  Stream.iterator fields = VObj o →
  callable (VObj o) = true →
  isinstance (VObj o) [Iterable; Iterator; AsyncIterable; AsyncIterator] = false →
  call o (World fields tr) = (inr v, s) →
  isinstance v [Iterable; AsyncIterable] = true →
  ∃ (w w' : world Stream.t) (resp : StreamingResponse.t),
    Stream.__init__ call fields tr = (inr tt, w)
    ∧ Stream.to_response call headers media_type status_code app request w
      = (inr resp, w')
    ∧ StreamingResponse.content resp = v
    ∧ StreamingResponse.encoding resp = Stream.encoding s
    ∧ StreamingResponse.background resp = Stream.background s
    ∧ trace w' = tr ++ [Called o]
    ∧ calls_in (trace w') = S (calls_in tr).
Proof.
  intros Hfield Hcall Hit Hret Hv.
  exists (World (Stream.set_iterator v s) (tr ++ [Called o])).
  exists (World (Stream.set_iterator v s) (tr ++ [Called o])).
  eexists. split.
  - unfold Stream.__init__.
    rewrite (post_init_callable call (World fields tr) o v s
               Hfield Hit Hcall Hret).
    by rewrite isinstance_four_two, Hv.
  - rewrite stream_to_response_iterable by exact Hv.
    split; [reflexivity|]. simpl. split_and!; try done.
    apply calls_in_snoc.
Qed.

Lemma stream_lifecycle_invokes_once_witness :
  ∃ (w w' : world Stream.t) (resp : StreamingResponse.t),
    Stream.__init__ Samples.call (Samples.stream_of (VObj Samples.rename)) []
    = (inr tt, w)
    ∧ Stream.to_response Samples.call ∅ VNone 200 Samples.app_without_engine
        Samples.request_without_token w = (inr resp, w')
    ∧ StreamingResponse.content resp = VObj Samples.chunks
    ∧ StreamingResponse.encoding resp = "latin-1"
    ∧ StreamingResponse.background resp = VNone
    ∧ trace w' = [Called Samples.rename]
    ∧ calls_in (trace w') = 1%nat.
Proof.
  apply (stream_lifecycle_invokes_once Samples.call
           (Samples.stream_of (VObj Samples.rename)) [] Samples.rename
           (VObj Samples.chunks)
           (Stream.mk (VObj Samples.rename) VNone ∅ [] VNone "latin-1")
           ∅ VNone 200 Samples.app_without_engine
           Samples.request_without_token);
    reflexivity.
Defined.

(** ** What the conversions do not read *)

(** X8. No conversion reads the container's own [headers], [cookies] or
    [media_type]: two containers that agree on their other fields give the
    same response (or the same error) for the same arguments, whatever
    these three fields hold and whatever the trace so far.  For a [Stream]
    this is on an [iterator] field that is iterable. *)
Theorem own_headers_cookies_media_type_unused
    (call : pyobj → world Stream.t → (exn + value) * Stream.t)
    headers media_type status_code (app : Starlite) (request : Request)
    (tr tr' : list event) :
  (∀ f f' : File.t,
     File.path f = File.path f' →
     File.background f = File.background f' →
     File.encoding f = File.encoding f' →
     File.filename f = File.filename f' →
     File.stat_result f = File.stat_result f' →
     File.chunk_size f = File.chunk_size f' →
     File.content_disposition_type f = File.content_disposition_type f' →
     File.etag f = File.etag f' →
     File.file_system f = File.file_system f' →
     File.file_info f = File.file_info f' →
     (File.to_response headers media_type status_code app request
        (World f tr)).1
     = (File.to_response headers media_type status_code app request
          (World f' tr')).1)
  ∧ (∀ c c' : Redirect.t,
       Redirect.path c = Redirect.path c' →
       Redirect.background c = Redirect.background c' →
       Redirect.encoding c = Redirect.encoding c' →
       (Redirect.to_response headers media_type status_code app request
          (World c tr)).1
       = (Redirect.to_response headers media_type status_code app request
            (World c' tr')).1)
  ∧ (∀ s s' : Stream.t,
       Stream.iterator s = Stream.iterator s' →
       Stream.background s = Stream.background s' →
       Stream.encoding s = Stream.encoding s' →
       isinstance (Stream.iterator s) [Iterable; AsyncIterable] = true →
       (Stream.to_response call headers media_type status_code app request
          (World s tr)).1
       = (Stream.to_response call headers media_type status_code app request
            (World s' tr')).1)
  ∧ (∀ t t' : Template.t,
       Template.name t = Template.name t' →
       Template.context t = Template.context t' →
       Template.background t = Template.background t' →
       Template.encoding t = Template.encoding t' →
       (Template.to_response headers media_type status_code app request
          (World t tr)).1
       = (Template.to_response headers media_type status_code app request
            (World t' tr')).1).
Proof.
  split_and!.
  - intros f f' Hp Hb He Hf Hs Hc Hd Hg Hy Hi.
    rewrite !file_to_response_run. simpl.
    by rewrite Hp, Hb, He, Hf, Hs, Hc, Hd, Hg, Hy, Hi.
  - intros c c' Hp Hb He. rewrite !redirect_to_response_run. simpl.
    by rewrite Hp, Hb, He.
  - intros s s' Hi Hb He Hit.
    rewrite !stream_to_response_iterable; simpl; [|by rewrite <- Hi|done].
    by rewrite Hi, Hb, He.
  - intros t t' Hn Hc Hb He.
    destruct (truthy (template_engine app)) eqn:Hengine.
    + rewrite !template_to_response_run by done. simpl.
      by rewrite Hn, Hc, Hb, He.
    + by rewrite !template_to_response_raise.
Qed.

Lemma own_headers_cookies_media_type_unused_witness :
  (Redirect.to_response ∅ (VStr "text/html") 302 Samples.app_with_engine
     Samples.request_without_token
     (World (Redirect.mk "/login" VNone {["x-frame" := VStr "deny"]}
               [VStr "session"] (VStr "text/plain") "utf-8") [])).1
  = (Redirect.to_response ∅ (VStr "text/html") 302 Samples.app_with_engine
       Samples.request_without_token
       (World (Redirect.defaults "/login") [Stat "/etc/hosts"])).1.
Proof.
  apply (proj1 (proj2 (own_headers_cookies_media_type_unused Samples.call
                         ∅ (VStr "text/html") 302 Samples.app_with_engine
                         Samples.request_without_token [] [Stat "/etc/hosts"])));
    reflexivity.
Defined.

(** ** Template: the stored context inside the generated one *)

(** X9. In the context that [create_template_context] builds, every key
    other than [request] and [csrf_input] has the value the stored context
    gives it, and is absent when the stored context has none; a value stored
    under [request] or [csrf_input] is replaced.  The generated context has
    at most two entries more than the stored one, and exactly these two when
    the stored context is empty. *)
Theorem template_context_keeps_stored_values (t : Template.t)
    (tr : list event) (request : Request) :
  ∃ ctx : gmap string value,
    Template.create_template_context request (World t tr) = (inr ctx, World t tr)
    ∧ (∀ k, k ≠ "request" → k ≠ "csrf_input" →
            ctx !! k = Template.context t !! k)
    ∧ (∀ v, Template.context t !! "request" = Some v →
            ctx !! "request" = Some (VObj (request_obj request)))
    ∧ (∀ v, Template.context t !! "csrf_input" = Some v →
            ctx !! "csrf_input" =
            Some (VStr (Template.csrf_input
                          (default (VStr "") (scope request !! "_csrf_token")))))
    ∧ (size (Template.context t) ≤ size ctx ≤ size (Template.context t) + 2)%nat
    ∧ (Template.context t = ∅ →
       dom ctx = {["request"; "csrf_input"]} ∧ size ctx = 2%nat).
Proof.
  eexists. split; [apply create_template_context_run|]. split_and!.
  - intros k Hreq Hcsrf. by rewrite !lookup_insert_ne.
  - intros v _. by rewrite lookup_insert_ne, lookup_insert_eq.
  - intros v _. by rewrite lookup_insert_eq.
  - rewrite !map_size_insert. rewrite lookup_insert_ne by done.
    destruct (Template.context t !! "csrf_input"),
             (Template.context t !! "request"); simpl; lia.
  - rewrite !map_size_insert. rewrite lookup_insert_ne by done.
    destruct (Template.context t !! "csrf_input"),
             (Template.context t !! "request"); simpl; lia.
  - intros ->. split.
    + rewrite !dom_insert_L, dom_empty_L. apply set_eq. intros k.
      rewrite !elem_of_union, !elem_of_singleton, elem_of_empty. tauto.
    + rewrite !map_size_insert, lookup_insert_ne by done.
      by rewrite !lookup_empty, map_size_empty.
Qed.

(** ** Template: the token can be read back from the markup *)

Lemma string_length_app (s t : string) :
  String.length (s +:+ t) = (String.length s + String.length t)%nat.
Proof.
  induction s as [|a s IH]; [reflexivity|].
  change (String a s +:+ t) with (String a (s +:+ t)). simpl. by rewrite IH.
Qed.

Lemma string_app_inv_tail (s1 s2 t : string) :
  s1 +:+ t = s2 +:+ t → s1 = s2.
Proof.
  revert s2. induction s1 as [|a s1 IH]; intros [|b s2] Heq.
  - reflexivity.
  - apply (f_equal String.length) in Heq.
    rewrite !string_length_app in Heq. simpl in Heq. lia.
  - apply (f_equal String.length) in Heq.
    rewrite !string_length_app in Heq. simpl in Heq. lia.
  - change (String a (s1 +:+ t) = String b (s2 +:+ t)) in Heq.
    injection Heq as -> Heq. f_equal. by apply IH.
Qed.

(** X10. The markup determines the token text: two tokens have the same
    [csrf_input] markup only when [format] renders them the same, and the
    markup is 51 characters longer than the rendered token. *)
Theorem csrf_input_determines_token (token token' : value) :
  (Template.csrf_input token = Template.csrf_input token' →
   py_format token = py_format token')
  ∧ String.length (Template.csrf_input token)
    = (51 + String.length (py_format token))%nat.
Proof.
  split.
  - unfold Template.csrf_input. intros Heq.
    repeat (apply String.app_inj in Heq).
    by apply string_app_inv_tail in Heq.
  - unfold Template.csrf_input, Template.dq.
    rewrite !string_length_app. simpl. lia.
Qed.

Lemma csrf_input_determines_token_witness :
  py_format (VStr "12") = py_format (VInt 12)
  ∧ String.length (Template.csrf_input (VStr "12")) = 53%nat.
Proof.
  split.
  - apply (proj1 (csrf_input_determines_token (VStr "12") (VInt 12))).
    reflexivity.
  - apply (proj2 (csrf_input_determines_token (VStr "12") (VInt 12))).
Defined.
